(** * Omnibox: classification and dispatch of submitted text

    A shallow embedding of [textual_markdown_viewer/widgets/omnibox.py]:
    the [Omnibox] widget's submit handler, its command splitter, its alias
    table and its command handlers, followed by the properties the
    specification states about them.

    Conventions of the embedding.
    - A Python [str] is a [string] whose characters are the code points
      U+0000..U+00FF; on that range [isspace], [lower], [strip] and
      [split(None, 1)] below are the exact Python functions.  Text with code
      points above U+00FF is outside the model.
    - [pathlib.Path] is modelled in its POSIX flavour, as the pair of root
      and name components that [PurePosixPath] keeps after parsing.
    - [is_likely_url] (imported from [..utility]), the set of texts that
      [httpx.URL] accepts, and the three filesystem queries [exists],
      [is_file] and [is_dir] are parameters.  [httpx.URL] raises
      [InvalidURL] on text it does not accept; a filesystem query either
      answers or raises [OSError].
    - The widget [self], its message queue and the event object are an
      explicit state threaded through a small state-and-exception monad. *)

From Stdlib Require Import Ascii String NArith Bool List.
From stdpp Require Import base option gmap strings list fin_maps.

Open Scope string_scope.

(** ** Python [str] operations *)

Module Str.

(** [str.isspace] on one character, for code points below 256. *)
Definition isspace (c : ascii) : bool :=
  let n := N_of_ascii c in
  (((9 <=? n) && (n <=? 13)) || ((28 <=? n) && (n <=? 32))
   || (n =? 133) || (n =? 160))%N.

(** [str.lower] on one character, for code points below 256: A-Z, and the
    Latin-1 capitals U+00C0..U+00DE without the multiplication sign. *)
Definition lower_char (c : ascii) : ascii :=
  let n := N_of_ascii c in
  if ((((65 <=? n) && (n <=? 90))
       || ((192 <=? n) && (n <=? 222) && negb (n =? 215))))%N
  then ascii_of_N (n + 32) else c.

Fixpoint lower (s : string) : string :=
  match s with
  | EmptyString => EmptyString
  | String c r => String (lower_char c) (lower r)
  end.

Fixpoint lstrip (s : string) : string :=
  match s with
  | EmptyString => EmptyString
  | String c r => if isspace c then lstrip r else s
  end.

Fixpoint rstrip (s : string) : string :=
  match s with
  | EmptyString => EmptyString
  | String c r =>
      match rstrip r with
      | EmptyString => if isspace c then EmptyString else String c EmptyString
      | r' => String c r'
      end
  end.

(** [s.strip()] *)
Definition strip (s : string) : string := rstrip (lstrip s).

(** The longest prefix without whitespace, and what follows it. *)
Fixpoint span_word (s : string) : string * string :=
  match s with
  | EmptyString => (EmptyString, EmptyString)
  | String c r =>
      if isspace c then (EmptyString, s)
      else let '(w, rest) := span_word r in (String c w, rest)
  end.

(** [s.split(None, 1)]: skip whitespace, take one word, skip whitespace, and
    keep the remainder (trailing whitespace included) when it is not empty. *)
Definition split_None_1 (s : string) : list string :=
  match lstrip s with
  | EmptyString => []
  | s1 =>
      let '(w, rest) := span_word s1 in
      match lstrip rest with
      | EmptyString => [w]
      | tail => [w; tail]
      end
  end.

(** [s.split(sep)] for a one-character separator. *)
Fixpoint split_on (sep : ascii) (s : string) : list string :=
  match s with
  | EmptyString => [EmptyString]
  | String c r =>
      if Ascii.eqb c sep then EmptyString :: split_on sep r
      else match split_on sep r with
           | h :: t => String c h :: t
           | [] => [String c EmptyString]
           end
  end.

(** [sep.join(parts)] *)
Fixpoint join (sep : string) (parts : list string) : string :=
  match parts with
  | [] => EmptyString
  | [p] => p
  | p :: ps => p ++ sep ++ join sep ps
  end.

End Str.

(** ** [pathlib.Path], POSIX flavour *)

Record PurePath : Type := mkPath { root : string; tail : list string }.

(** [posixpath.splitroot]: the root is "/", or "//" for exactly two leading
    slashes. *)
Definition splitroot (p : string) : string * string :=
  match p with
  | String "/" (String "/" (String "/" r)) => ("/", String "/" (String "/" r))
  | String "/" (String "/" r) => ("//", r)
  | String "/" r => ("/", r)
  | _ => ("", p)
  end.

(** A component is kept when it is neither empty nor ".". *)
Definition keep_part (x : string) : bool :=
  negb (String.eqb x "") && negb (String.eqb x ".").

(** [Path(s)]: [PurePath._parse_path]. *)
Definition Path (s : string) : PurePath :=
  match s with
  | EmptyString => mkPath "" []
  | _ => let '(rt, rel) := splitroot s in
         mkPath rt (List.filter keep_part (Str.split_on "/" rel))
  end.

(** [str(path)]: [PurePath.__str__]. *)
Definition Path_str (p : PurePath) : string :=
  match root p with
  | EmptyString =>
      match Str.join "/" (tail p) with
      | EmptyString => "."
      | s => s
      end
  | rt => rt ++ Str.join "/" (tail p)
  end.

(** The filesystem as seen through [Path.exists], [Path.is_file] and
    [Path.is_dir].  Each query answers [Some b], or is [None] when the
    underlying [stat] fails with an error that pathlib does not take for
    "not there" (name too long, permission denied, ...) and the query
    raises [OSError]. *)
Record Filesystem : Type := mkFs {
  exists_ : PurePath -> option bool;
  is_file : PurePath -> option bool;
  is_dir : PurePath -> option bool
}.

(** An [httpx.URL] object: kept as the text it was built from. *)
Inductive URL : Type := mkURL (text : string).

(** ** Messages, widget state and the handler monad *)

Inductive Message : Type :=
| LocalViewCommand (path : PurePath)
| RemoteViewCommand (url : URL)
| LocalChdirCommand (target : PurePath)
| ContentsCommand
| LocalFilesCommand
| QuitCommand
| HistoryCommand
| AboutCommand.

(** The widget's fields, the messages it has posted (oldest first) and the
    stop flag of the event being handled. *)
Record State : Type := mkState {
  value : string;
  visiting : string;
  placeholder : string;
  posted : list Message;
  stopped : bool
}.

Inductive Exception : Type :=
  ValueError | AttributeError | InvalidURL | OSError.

Inductive Result (A : Type) : Type :=
| Returned (a : A)
| Raised (e : Exception).
Arguments Returned {A} a.
Arguments Raised {A} e.

(** A method body: it runs on a state and either returns or raises; the
    mutations made before a raise stay. *)
Definition M (A : Type) : Type := State -> Result A * State.

Definition ret {A} (a : A) : M A := fun s => (Returned a, s).

Definition raise {A} (e : Exception) : M A := fun s => (Raised e, s).

Definition bind {A B} (m : M A) (k : A -> M B) : M B :=
  fun s => match m s with
           | (Returned a, s') => k a s'
           | (Raised e, s') => (Raised e, s')
           end.

Notation "'let!' x ':=' m 'in' k" := (bind m (fun x => k))
  (at level 10, x name, m at level 100, k at level 200).
Notation "m >> k" := (bind m (fun _ => k))
  (at level 90, right associativity).

(** A computation that touches no state. *)
Definition lift {A} (r : Result A) : M A := fun s => (r, s).

Definition get_value : M string := fun s => (Returned (value s), s).

Definition set_value (v : string) : M unit :=
  fun s => (Returned tt,
            mkState v (visiting s) (placeholder s) (posted s) (stopped s)).

Definition set_placeholder (v : string) : M unit :=
  fun s => (Returned tt,
            mkState (value s) (visiting s) v (posted s) (stopped s)).

Definition get_visiting : M string := fun s => (Returned (visiting s), s).

(** [self.post_message(m)] *)
Definition post_message (m : Message) : M unit :=
  fun s => (Returned tt,
            mkState (value s) (visiting s) (placeholder s)
                    (posted s ++ [m]) (stopped s)).

(** [event.stop()] *)
Definition event_stop : M unit :=
  fun s => (Returned tt,
            mkState (value s) (visiting s) (placeholder s) (posted s) true).

(** A filesystem query: its answer, or [OSError]. *)
Definition query (answer : option bool) : M bool :=
  match answer with
  | Some b => ret b
  | None => raise OSError
  end.

(** [httpx.URL(text)], given the texts [valid_url] that the constructor
    accepts: the object, or [InvalidURL]. *)
Definition new_URL (valid_url : string -> bool) (text : string) : M URL :=
  if valid_url text then ret (mkURL text) else raise InvalidURL.

(** Python truthiness of a [str]. *)
Definition truthy (s : string) : bool := negb (String.eqb s "").

(** ** The widget *)

Definition watch_visiting : M unit :=
  let! v := get_visiting in
  set_placeholder (if truthy v then v else "Enter a location or command") >>
  if truthy v then set_value v else ret tt.

Definition _ALIASES : gmap string string :=
  list_to_map
    [("a", "about");
     ("c", "contents");
     ("cd", "chdir");
     ("h", "history");
     ("l", "local");
     ("toc", "contents");
     ("q", "quit")].

Definition _split_command (value : string) : list string :=
  let command := Str.split_None_1 value in
  if Nat.eqb (length command) 1 then command ++ [""] else command.

Definition command_contents (_ : string) : M unit :=
  post_message ContentsCommand.

Definition command_local (_ : string) : M unit :=
  post_message LocalFilesCommand.

Definition command_quit (_ : string) : M unit :=
  post_message QuitCommand.

Definition command_history (_ : string) : M unit :=
  post_message HistoryCommand.

Definition command_about (_ : string) : M unit :=
  post_message AboutCommand.

Definition command_chdir (target : string) : M unit :=
  post_message (LocalChdirCommand (Path target)).

(** The attributes of an [Omnibox] whose name starts with [command_]: the
    six handler methods of the class. *)
Definition attributes : gmap string (string -> M unit) :=
  list_to_map
    [("command_contents", command_contents);
     ("command_local", command_local);
     ("command_quit", command_quit);
     ("command_history", command_history);
     ("command_about", command_about);
     ("command_chdir", command_chdir)].

(** [self._ALIASES.get(command, command)] *)
Definition resolve (command : string) : string :=
  default command (_ALIASES !! command).

(** [getattr(self, f"command_{name}", None)] *)
Definition getattr_command (name : string) : option (string -> M unit) :=
  attributes !! ("command_" ++ name).

(** [command, *_ = xs]: at least one element is needed. *)
Definition unpack_head (xs : list string) : Result string :=
  match xs with
  | x :: _ => Returned x
  | [] => Raised ValueError
  end.

(** [command, arguments = xs]: exactly two elements are needed. *)
Definition unpack_pair (xs : list string) : Result (string * string) :=
  match xs with
  | [x; y] => Returned (x, y)
  | _ => Raised ValueError
  end.

(** [x is not None] *)
Definition is_not_None {A} (x : option A) : bool :=
  match x with
  | Some _ => true
  | None => false
  end.

Definition _is_command (value : string) : M bool :=
  let! command := lift (unpack_head (_split_command value)) in
  ret (is_not_None (getattr_command (resolve command))).

Definition _execute_command (command : string) : M unit :=
  let! pair := lift (unpack_pair (_split_command command)) in
  let '(command, arguments) := pair in
  match getattr_command (resolve command) with
  | Some handler => handler (Str.strip arguments)
  | None => raise AttributeError
  end.

(** How the chain of tests in [on_input_submitted] ends: by falling out of
    it, or by the [return] of its innermost [else]. *)
Inductive Flow : Type := FallThrough | EarlyReturn.

Section Submit.

Variable is_likely_url : string -> bool.
Variable valid_url : string -> bool.
Variable fs : Filesystem.

Definition on_input_submitted : M unit :=
  let! v := get_value in
  let submitted := Str.strip v in
  set_value "" >>
  let! flow :=
    (if is_likely_url submitted then
       let! url := new_URL valid_url submitted in
       post_message (RemoteViewCommand url) >>
       ret FallThrough
     else
       let path := Path submitted in
       let! found := query (exists_ fs path) in
       if found then
         let! file := query (is_file fs path) in
         if file then
           post_message (LocalViewCommand path) >>
           set_value (Path_str path) >>
           ret FallThrough
         else
           let! dir := query (is_dir fs path) in
           if dir then
             post_message (LocalChdirCommand path) >>
             ret FallThrough
           else
             ret EarlyReturn
       else
         let command := Str.lower submitted in
         let! is_cmd := _is_command command in
         if is_cmd then
           _execute_command command >>
           ret FallThrough
         else
           post_message (LocalViewCommand (Path submitted)) >>
           set_value submitted >>
           ret FallThrough) in
  match flow with
  | FallThrough => event_stop
  | EarlyReturn => ret tt
  end.

End Submit.

(** ** Outcomes of a run *)

(** The state after a run that left [v] in the input, posted [msgs] and set
    the stop flag to [stop]; the other fields are those of [s]. *)
Definition settled (s : State) (v : string) (msgs : list Message)
    (stop : bool) : State :=
  mkState v (visiting s) (placeholder s) (posted s ++ msgs) stop.

(** [s] with its input cleared and nothing else changed. *)
Definition cleared (s : State) : State :=
  mkState "" (visiting s) (placeholder s) (posted s) (stopped s).

(** [s] with [v] typed into the input. *)
Definition with_value (s : State) (v : string) : State :=
  mkState v (visiting s) (placeholder s) (posted s) (stopped s).

(** ** Concrete collaborators used in the examples *)

Definition never_url (_ : string) : bool := false.

Definition empty_fs : Filesystem :=
  mkFs (fun _ => Some false) (fun _ => Some false) (fun _ => Some false).

(** A widget holding [v], nothing posted, event not stopped. *)
Definition typed (v : string) : State := mkState v "" "" [] false.

(** A URL test that accepts text starting with an http or https scheme. *)
Definition scheme_url (text : string) : bool :=
  String.prefix "http://" text || String.prefix "https://" text.

Definition is_digit (c : ascii) : bool :=
  ((48 <=? N_of_ascii c) && (N_of_ascii c <=? 57))%N.

(** A stand-in for the texts that [httpx.URL] accepts: those whose
    authority, when there is one, has no port or a port made of digits. *)
Definition numeric_port_url (text : string) : bool :=
  match Str.split_on "/" text with
  | _ :: EmptyString :: authority :: _ =>
      match Str.split_on ":" authority with
      | [_; port] => forallb is_digit (list_ascii_of_string port)
      | _ => true
      end
  | _ => true
  end.

(** What a sample filesystem holds under a name; [Inaccessible] stands for
    a name on which [stat] fails. *)
Inductive Kind : Type := RegularFile | Directory | Special | Inaccessible.

Definition Kind_eqb (a b : Kind) : bool :=
  match a, b with
  | RegularFile, RegularFile | Directory, Directory | Special, Special
  | Inaccessible, Inaccessible => true
  | _, _ => false
  end.

(** The kind of the entry that [entries] lists under the text of [p]. *)
Definition kind_of (entries : list (string * Kind)) (p : PurePath)
    : option Kind :=
  snd <$> List.find (fun e => String.eqb (fst e) (Path_str p)) entries.

Definition has_kind (k : Kind) (o : option Kind) : bool :=
  match o with
  | Some k' => Kind_eqb k k'
  | None => false
  end.

(** The answer of a query on an entry of kind [o], or its failure. *)
Definition answer (o : option Kind) (b : bool) : option bool :=
  if has_kind Inaccessible o then None else Some b.

(** A filesystem holding [entries] and nothing else. *)
Definition fs_of (entries : list (string * Kind)) : Filesystem :=
  mkFs (fun p => answer (kind_of entries p) (is_not_None (kind_of entries p)))
       (fun p => answer (kind_of entries p)
                        (has_kind RegularFile (kind_of entries p)))
       (fun p => answer (kind_of entries p)
                        (has_kind Directory (kind_of entries p))).

(** The text is not taken for a URL and names something that exists and is
    neither a regular file nor a directory. *)
Definition unrepresentable (is_likely_url : string -> bool) (fs : Filesystem)
    (submitted : string) : Prop :=
  is_likely_url submitted = false
  /\ exists_ fs (Path submitted) = Some true
  /\ is_file fs (Path submitted) = Some false
  /\ is_dir fs (Path submitted) = Some false.

(** A filesystem query on the path of the text fails, at the point where
    the handler makes it. *)
Definition query_fails (fs : Filesystem) (submitted : string) : Prop :=
  exists_ fs (Path submitted) = None
  \/ (exists_ fs (Path submitted) = Some true
      /\ (is_file fs (Path submitted) = None
          \/ (is_file fs (Path submitted) = Some false
              /\ is_dir fs (Path submitted) = None))).

(** ** Predicates on text used by the lemmas *)

(** No character of [t] is whitespace. *)
Definition spaceless (t : string) : bool :=
  forallb (fun c => negb (Str.isspace c)) (list_ascii_of_string t).

(** [w] is empty or begins with whitespace. *)
Definition at_word_end (w : string) : bool :=
  match w with
  | EmptyString => true
  | String c _ => Str.isspace c
  end.

(** [s] is empty or begins with a character that is not whitespace. *)
Definition at_word_start (s : string) : bool :=
  match s with
  | EmptyString => true
  | String c _ => negb (Str.isspace c)
  end.

(** Every character of [s] is whitespace. *)
Definition blank (s : string) : bool :=
  forallb Str.isspace (list_ascii_of_string s).

(** The words that [_is_command] accepts as a leading token: the six handler
    names and the seven aliases. *)
Definition command_words : list string :=
  ["about"; "contents"; "chdir"; "history"; "local"; "quit";
   "a"; "c"; "cd"; "h"; "l"; "toc"; "q"].

(** The ways a run can end, by what the URL test, the URL constructor, the
    filesystem and the command lookup say about the stripped text. *)
Inductive Ending (is_likely_url valid_url : string -> bool) (fs : Filesystem)
    (s : State) : Result unit * State -> Prop :=
| EndsRemote :
    is_likely_url (Str.strip (value s)) = true ->
    valid_url (Str.strip (value s)) = true ->
    Ending is_likely_url valid_url fs s
      (Returned tt,
       settled s "" [RemoteViewCommand (mkURL (Str.strip (value s)))] true)
| EndsInvalidURL :
    is_likely_url (Str.strip (value s)) = true ->
    valid_url (Str.strip (value s)) = false ->
    Ending is_likely_url valid_url fs s (Raised InvalidURL, cleared s)
| EndsQueryFailed :
    is_likely_url (Str.strip (value s)) = false ->
    query_fails fs (Str.strip (value s)) ->
    Ending is_likely_url valid_url fs s (Raised OSError, cleared s)
| EndsFile :
    is_likely_url (Str.strip (value s)) = false ->
    exists_ fs (Path (Str.strip (value s))) = Some true ->
    is_file fs (Path (Str.strip (value s))) = Some true ->
    Ending is_likely_url valid_url fs s
      (Returned tt,
       settled s (Path_str (Path (Str.strip (value s))))
               [LocalViewCommand (Path (Str.strip (value s)))] true)
| EndsDirectory :
    is_likely_url (Str.strip (value s)) = false ->
    exists_ fs (Path (Str.strip (value s))) = Some true ->
    is_file fs (Path (Str.strip (value s))) = Some false ->
    is_dir fs (Path (Str.strip (value s))) = Some true ->
    Ending is_likely_url valid_url fs s
      (Returned tt,
       settled s "" [LocalChdirCommand (Path (Str.strip (value s)))] true)
| EndsIgnored :
    unrepresentable is_likely_url fs (Str.strip (value s)) ->
    Ending is_likely_url valid_url fs s (Returned tt, cleared s)
| EndsRaised :
    is_likely_url (Str.strip (value s)) = false ->
    exists_ fs (Path (Str.strip (value s))) = Some false ->
    Str.strip (value s) = "" ->
    Ending is_likely_url valid_url fs s (Raised ValueError, cleared s)
| EndsCommand (tok args : string) (m : Message) :
    is_likely_url (Str.strip (value s)) = false ->
    exists_ fs (Path (Str.strip (value s))) = Some false ->
    _split_command (Str.lower (Str.strip (value s))) = [tok; args] ->
    tok ∈ command_words ->
    _execute_command (Str.lower (Str.strip (value s))) (cleared s)
    = (Returned tt, settled s "" [m] (stopped s)) ->
    Ending is_likely_url valid_url fs s (Returned tt, settled s "" [m] true)
| EndsUnresolved (tok args : string) :
    is_likely_url (Str.strip (value s)) = false ->
    exists_ fs (Path (Str.strip (value s))) = Some false ->
    _split_command (Str.lower (Str.strip (value s))) = [tok; args] ->
    tok ∉ command_words ->
    Ending is_likely_url valid_url fs s
      (Returned tt,
       settled s (Str.strip (value s))
               [LocalViewCommand (Path (Str.strip (value s)))] true).

(** ** Examples *)

Example ex_split_1 : _split_command "cd   /Tmp  x " = ["cd"; "/Tmp  x "].
Proof. reflexivity. Qed.

Example ex_split_2 : _split_command " q  " = ["q"; ""].
Proof. reflexivity. Qed.

Example ex_split_3 : _split_command "  " = [].
Proof. reflexivity. Qed.

Example ex_path_1 : Path_str (Path "./README.md") = "README.md".
Proof. reflexivity. Qed.

Example ex_path_2 : Path_str (Path "") = ".".
Proof. reflexivity. Qed.

Example ex_path_3 : Path_str (Path "//a//b/./c/") = "//a/b/c".
Proof. reflexivity. Qed.

Example ex_path_4 : Path_str (Path "///a/../b") = "/a/../b".
Proof. reflexivity. Qed.

Example ex_quit :
  on_input_submitted never_url numeric_port_url empty_fs (typed "Q")
  = (Returned tt, mkState "" "" "" [QuitCommand] true).
Proof. vm_compute. reflexivity. Qed.

(** ** Facts about the string operations *)

Lemma isspace_lower_char c : Str.isspace (Str.lower_char c) = Str.isspace c.
Proof. destruct c as [[] [] [] [] [] [] [] []]; reflexivity. Qed.

Lemma lower_app a b : Str.lower (a ++ b) = Str.lower a ++ Str.lower b.
Proof. induction a as [|c a IH]; simpl; [reflexivity | now rewrite IH]. Qed.

Lemma lower_empty_iff s : Str.lower s = "" <-> s = "".
Proof. destruct s; simpl; split; congruence. Qed.

Lemma at_word_end_lower w : at_word_end (Str.lower w) = at_word_end w.
Proof. destruct w; simpl; [reflexivity | apply isspace_lower_char]. Qed.

Lemma at_word_start_lower s : at_word_start (Str.lower s) = at_word_start s.
Proof. destruct s; simpl; [reflexivity | now rewrite isspace_lower_char]. Qed.

Lemma at_word_start_lstrip s : at_word_start (Str.lstrip s) = true.
Proof.
  induction s as [|c s IH]; simpl; [reflexivity |].
  destruct (Str.isspace c) eqn:E; [exact IH | simpl; now rewrite E].
Qed.

Lemma lstrip_at_word_start s : at_word_start s = true -> Str.lstrip s = s.
Proof.
  destruct s as [|c s]; simpl; [reflexivity |].
  destruct (Str.isspace c); [discriminate | reflexivity].
Qed.

Lemma rstrip_cons c r :
  Str.isspace c = false -> exists r', Str.rstrip (String c r) = String c r'.
Proof.
  intros E. simpl. destruct (Str.rstrip r) as [|d r'].
  - rewrite E. now exists "".
  - now exists (String d r').
Qed.

Lemma at_word_start_rstrip s :
  at_word_start s = true -> at_word_start (Str.rstrip s) = true.
Proof.
  destruct s as [|c s]; [reflexivity |]. cbn [at_word_start]. intros E.
  apply negb_true_iff in E. destruct (rstrip_cons c s E) as [r' ->].
  simpl. now rewrite E.
Qed.

Lemma at_word_start_strip v : at_word_start (Str.strip v) = true.
Proof. apply at_word_start_rstrip, at_word_start_lstrip. Qed.

Lemma rstrip_spaceless_app t y :
  spaceless t = true -> Str.rstrip (t ++ y) = t ++ Str.rstrip y.
Proof.
  induction t as [|c t IH]; [reflexivity |].
  unfold spaceless. cbn [list_ascii_of_string forallb].
  intros H. apply andb_true_iff in H as [Hc Ht]. apply negb_true_iff in Hc.
  simpl. rewrite (IH Ht).
  change (String c t ++ Str.rstrip y) with (String c (t ++ Str.rstrip y)).
  destruct (t ++ Str.rstrip y); [now rewrite Hc | reflexivity].
Qed.

Lemma span_word_spaceless_app t w :
  spaceless t = true -> at_word_end w = true -> Str.span_word (t ++ w) = (t, w).
Proof.
  intros Ht Hw. induction t as [|c t IH].
  - destruct w as [|d w]; simpl in *; [reflexivity | now rewrite Hw].
  - unfold spaceless in Ht. cbn [list_ascii_of_string forallb] in Ht.
    apply andb_true_iff in Ht as [Hc Ht]. apply negb_true_iff in Hc.
    simpl. rewrite Hc, (IH Ht). reflexivity.
Qed.

Lemma at_word_end_rstrip_space x : at_word_end (Str.rstrip (" " ++ x)) = true.
Proof.
  change (" " ++ x) with (String " " x). simpl.
  destruct (Str.rstrip x); reflexivity.
Qed.

(** [_split_command] yields no element or exactly two. *)
Lemma split_command_shape v :
  _split_command v = [] \/ exists tok args, _split_command v = [tok; args].
Proof.
  unfold _split_command, Str.split_None_1.
  destruct (Str.lstrip v) as [|c r]; [now left | right].
  destruct (Str.span_word (String c r)) as [w rest].
  destruct (Str.lstrip rest) as [|d tl]; simpl; eauto.
Qed.

(** It yields no element only on text that is all whitespace. *)
Lemma split_command_nil v : _split_command v = [] -> Str.lstrip v = "".
Proof.
  unfold _split_command, Str.split_None_1.
  destruct (Str.lstrip v) as [|c r]; [reflexivity |].
  destruct (Str.span_word (String c r)) as [w rest].
  destruct (Str.lstrip rest); simpl; discriminate.
Qed.

(** On stripped text that is not empty there is a leading token. *)
Lemma split_command_stripped v :
  Str.strip v <> "" ->
  exists tok args, _split_command (Str.lower (Str.strip v)) = [tok; args].
Proof.
  intros Hne.
  destruct (split_command_shape (Str.lower (Str.strip v))) as [Hnil | H]; [| exact H].
  apply split_command_nil in Hnil.
  rewrite lstrip_at_word_start in Hnil
    by (rewrite at_word_start_lower; apply at_word_start_strip).
  apply (proj1 (lower_empty_iff _)) in Hnil. destruct (Hne Hnil).
Qed.

(** A lowercase word followed by a space and anything: the word is the
    token, and the tail depends on what follows only. *)
Lemma split_command_word t x :
  t <> "" -> spaceless t = true -> Str.lower t = t ->
  _split_command (Str.lower (Str.strip (t ++ " " ++ x)))
  = [t; Str.lstrip (Str.lower (Str.rstrip (" " ++ x)))].
Proof.
  intros Hne Hsp Hlow.
  assert (Hstart : at_word_start (t ++ " " ++ x) = true).
  { destruct t as [|c t]; [contradiction |]. unfold spaceless in Hsp.
    cbn [list_ascii_of_string forallb] in Hsp.
    apply andb_true_iff in Hsp as [Hc _]. exact Hc. }
  unfold Str.strip. rewrite (lstrip_at_word_start _ Hstart).
  rewrite (rstrip_spaceless_app _ _ Hsp), lower_app, Hlow.
  set (w := Str.lower (Str.rstrip (" " ++ x))).
  assert (Hw : at_word_end w = true).
  { unfold w. rewrite at_word_end_lower. apply at_word_end_rstrip_space. }
  unfold _split_command, Str.split_None_1.
  assert (Hstart' : at_word_start (t ++ w) = true).
  { destruct t as [|c t]; [contradiction |]. unfold spaceless in Hsp.
    cbn [list_ascii_of_string forallb] in Hsp.
    apply andb_true_iff in Hsp as [Hc _]. exact Hc. }
  rewrite (lstrip_at_word_start _ Hstart').
  destruct (t ++ w) as [|c r] eqn:E.
  { destruct t; [contradiction | discriminate]. }
  rewrite <- E, (span_word_spaceless_app _ _ Hsp Hw).
  destruct (Str.lstrip w); reflexivity.
Qed.

(** ** Facts about the alias table and the handlers *)

(** Every handler posts one message, computed from its argument. *)
Lemma getattr_command_posts name h :
  getattr_command name = Some h ->
  exists f : string -> Message, forall a, h a = post_message (f a).
Proof.
  unfold getattr_command, attributes. cbn [list_to_map foldr fst snd].
  intros H.
  repeat (apply lookup_insert_Some in H as [[_ <-] | [_ H]];
          [eexists (fun _ => _); intros a; reflexivity |]).
  rewrite lookup_empty in H. discriminate.
Qed.

(** The entries of the alias table. *)
Lemma aliases_entries a c :
  _ALIASES !! a = Some c ->
  (a, c) ∈ [("a", "about"); ("c", "contents"); ("cd", "chdir");
            ("h", "history"); ("l", "local"); ("toc", "contents");
            ("q", "quit")].
Proof.
  unfold _ALIASES. cbn [list_to_map foldr fst snd]. intros H.
  repeat (apply lookup_insert_Some in H as [[<- <-] | [_ H]];
          [set_solver |]).
  rewrite lookup_empty in H. discriminate.
Qed.

(** ** The branches of [on_input_submitted] *)

Section Branches.

Variable is_likely_url : string -> bool.
Variable valid_url : string -> bool.
Variable fs : Filesystem.
Variable s : State.

Local Abbreviation submitted := (Str.strip (value s)).
Local Abbreviation run := (on_input_submitted is_likely_url valid_url fs s).

Ltac enter :=
  unfold on_input_submitted, bind, get_value, set_value, post_message,
    event_stop, ret, raise, query, new_URL, settled, cleared;
  cbn [value visiting placeholder posted stopped].

Lemma run_url :
  is_likely_url submitted = true ->
  valid_url submitted = true ->
  run = (Returned tt, settled s "" [RemoteViewCommand (mkURL submitted)] true).
Proof. intros Hu Hv. enter. rewrite Hu, Hv. reflexivity. Qed.

Lemma run_invalid_url :
  is_likely_url submitted = true ->
  valid_url submitted = false ->
  run = (Raised InvalidURL, cleared s).
Proof. intros Hu Hv. enter. rewrite Hu, Hv. reflexivity. Qed.

Lemma run_query_fails :
  is_likely_url submitted = false ->
  query_fails fs submitted ->
  run = (Raised OSError, cleared s).
Proof.
  intros Hu [He | [He [Hf | [Hf Hd]]]]; enter; rewrite Hu, He;
    try rewrite Hf; try rewrite Hd; reflexivity.
Qed.

Lemma run_file :
  is_likely_url submitted = false ->
  exists_ fs (Path submitted) = Some true ->
  is_file fs (Path submitted) = Some true ->
  run = (Returned tt,
         settled s (Path_str (Path submitted))
                 [LocalViewCommand (Path submitted)] true).
Proof. intros Hu He Hf. enter. rewrite Hu, He, Hf. reflexivity. Qed.

Lemma run_dir :
  is_likely_url submitted = false ->
  exists_ fs (Path submitted) = Some true ->
  is_file fs (Path submitted) = Some false ->
  is_dir fs (Path submitted) = Some true ->
  run = (Returned tt,
         settled s "" [LocalChdirCommand (Path submitted)] true).
Proof. intros Hu He Hf Hd. enter. rewrite Hu, He, Hf, Hd. reflexivity. Qed.

Lemma run_other :
  is_likely_url submitted = false ->
  exists_ fs (Path submitted) = Some true ->
  is_file fs (Path submitted) = Some false ->
  is_dir fs (Path submitted) = Some false ->
  run = (Returned tt, cleared s).
Proof. intros Hu He Hf Hd. enter. rewrite Hu, He, Hf, Hd. reflexivity. Qed.

Lemma run_no_token :
  is_likely_url submitted = false ->
  exists_ fs (Path submitted) = Some false ->
  _split_command (Str.lower submitted) = [] ->
  run = (Raised ValueError, cleared s).
Proof.
  intros Hu He Hs. enter. rewrite Hu, He.
  unfold _is_command, bind, lift. rewrite Hs. reflexivity.
Qed.

Lemma run_command tok args h :
  is_likely_url submitted = false ->
  exists_ fs (Path submitted) = Some false ->
  _split_command (Str.lower submitted) = [tok; args] ->
  getattr_command (resolve tok) = Some h ->
  run = (h (Str.strip args) >> event_stop) (cleared s).
Proof.
  intros Hu He Hs Hh. enter. rewrite Hu, He.
  unfold _is_command, _execute_command, bind, lift, ret. rewrite Hs.
  cbn [unpack_head unpack_pair]. rewrite Hh. cbn [is_not_None].
  destruct (getattr_command_posts _ _ Hh) as [f Hf]. rewrite Hf.
  reflexivity.
Qed.

Lemma run_unresolved tok :
  is_likely_url submitted = false ->
  exists_ fs (Path submitted) = Some false ->
  unpack_head (_split_command (Str.lower submitted)) = Returned tok ->
  getattr_command (resolve tok) = None ->
  run = (Returned tt,
         settled s submitted [LocalViewCommand (Path submitted)] true).
Proof.
  intros Hu He Hs Hh. enter. rewrite Hu, He.
  unfold _is_command, bind, lift, ret. rewrite Hs, Hh. reflexivity.
Qed.

End Branches.

(** ** Shape of every run *)

(** A run looks at the URL test, at the URL constructor and at the
    filesystem only at the stripped text and at its path. *)
Lemma run_agree url1 url2 valid1 valid2 fs1 fs2 s :
  let submitted := Str.strip (value s) in
  url1 submitted = url2 submitted ->
  valid1 submitted = valid2 submitted ->
  exists_ fs1 (Path submitted) = exists_ fs2 (Path submitted) ->
  is_file fs1 (Path submitted) = is_file fs2 (Path submitted) ->
  is_dir fs1 (Path submitted) = is_dir fs2 (Path submitted) ->
  on_input_submitted url1 valid1 fs1 s = on_input_submitted url2 valid2 fs2 s.
Proof.
  intros submitted Hu Hv He Hf Hd.
  unfold on_input_submitted, bind, get_value, set_value, new_URL.
  cbn [value visiting placeholder posted stopped]. fold submitted.
  rewrite Hu, Hv, He, Hf, Hd. reflexivity.
Qed.

Lemma string_app_inv_head (a b c : string) : a ++ b = a ++ c -> b = c.
Proof.
  induction a as [|x a IH]; [trivial |].
  change (String x (a ++ b) = String x (a ++ c) -> b = c).
  intros H. injection H as H. exact (IH H).
Qed.

Lemma getattr_command_name name h :
  getattr_command name = Some h ->
  name ∈ ["contents"; "local"; "quit"; "history"; "about"; "chdir"].
Proof.
  unfold getattr_command, attributes. cbn [list_to_map foldr fst snd].
  intros H.
  repeat (apply lookup_insert_Some in H as [[Hk _] | [_ H]];
          [apply (string_app_inv_head "command_" _ name) in Hk as <-;
           repeat constructor |]).
  rewrite lookup_empty in H. discriminate.
Qed.

Lemma resolve_cases tok :
  (_ALIASES !! tok = None /\ resolve tok = tok)
  \/ (exists c, _ALIASES !! tok = Some c /\ resolve tok = c).
Proof.
  unfold resolve. destruct (_ALIASES !! tok) as [c|]; [right | left]; eauto.
Qed.

Lemma handler_lookup_words tok :
  is_not_None (getattr_command (resolve tok))
  = bool_decide (tok ∈ command_words).
Proof.
  destruct (decide (tok ∈ command_words)) as [Hin | Hout].
  - rewrite (bool_decide_eq_true_2 _ Hin). unfold command_words in Hin.
    repeat (apply elem_of_cons in Hin as [-> | Hin]; [reflexivity |]).
    apply elem_of_nil in Hin. destruct Hin.
  - rewrite (bool_decide_eq_false_2 _ Hout).
    destruct (getattr_command (resolve tok)) as [h|] eqn:Hh; [| reflexivity].
    exfalso. apply Hout. apply getattr_command_name in Hh.
    destruct (resolve_cases tok) as [[_ Hr] | (c & Ha & Hr)]; rewrite Hr in Hh.
    + unfold command_words.
      repeat (apply elem_of_cons in Hh as [-> | Hh]; [repeat constructor |]).
      apply elem_of_nil in Hh. destruct Hh.
    + apply aliases_entries in Ha. unfold command_words.
      repeat (apply elem_of_cons in Ha as [Ha | Ha];
              [injection Ha as -> ->; repeat constructor |]).
      apply elem_of_nil in Ha. destruct Ha.
Qed.

Lemma execute_command_token v tok args s :
  _split_command v = [tok; args] ->
  _execute_command v s
  = match getattr_command (resolve tok) with
    | Some handler => handler (Str.strip args) s
    | None => (Raised AttributeError, s)
    end.
Proof.
  intros H. unfold _execute_command, bind, lift. rewrite H.
  cbn [unpack_pair]. destruct (getattr_command (resolve tok)); reflexivity.
Qed.

(** Every run ends in one of the ways of [Ending]. *)
Lemma run_ending is_likely_url valid_url fs s :
  Ending is_likely_url valid_url fs s
    (on_input_submitted is_likely_url valid_url fs s).
Proof.
  destruct (is_likely_url (Str.strip (value s))) eqn:Hu.
  { destruct (valid_url (Str.strip (value s))) eqn:Hv.
    - rewrite (run_url _ _ fs s Hu Hv). now constructor.
    - rewrite (run_invalid_url _ _ fs s Hu Hv). now constructor. }
  destruct (exists_ fs (Path (Str.strip (value s)))) as [[|]|] eqn:He.
  { destruct (is_file fs (Path (Str.strip (value s)))) as [[|]|] eqn:Hf.
    - rewrite (run_file _ valid_url fs s Hu He Hf). now constructor.
    - destruct (is_dir fs (Path (Str.strip (value s)))) as [[|]|] eqn:Hd.
      + rewrite (run_dir _ valid_url fs s Hu He Hf Hd). now constructor.
      + rewrite (run_other _ valid_url fs s Hu He Hf Hd).
        apply EndsIgnored. now repeat split.
      + rewrite (run_query_fails _ valid_url fs s Hu).
        * apply EndsQueryFailed; [exact Hu |]. right. eauto.
        * right. eauto.
    - rewrite (run_query_fails _ valid_url fs s Hu).
      + apply EndsQueryFailed; [exact Hu |]. right. eauto.
      + right. eauto. }
  2:{ rewrite (run_query_fails _ valid_url fs s Hu).
      - apply EndsQueryFailed; [exact Hu |]. now left.
      - now left. }
  destruct (string_dec (Str.strip (value s)) "") as [Hempty | Hne].
  { rewrite (run_no_token _ valid_url fs s Hu He).
    - now constructor.
    - now rewrite Hempty. }
  destruct (split_command_stripped (value s) Hne) as (tok & args & Hs).
  pose proof (handler_lookup_words tok) as Hw.
  destruct (decide (tok ∈ command_words)) as [Hin | Hout].
  - rewrite (bool_decide_eq_true_2 _ Hin) in Hw.
    destruct (getattr_command (resolve tok)) as [h|] eqn:Hh; [| discriminate].
    destruct (getattr_command_posts _ _ Hh) as [f Hf].
    rewrite (run_command _ valid_url fs s tok args h Hu He Hs Hh), Hf.
    apply (EndsCommand _ _ _ _ tok args (f (Str.strip args)) Hu He Hs Hin).
    rewrite (execute_command_token _ tok args (cleared s) Hs), Hh, Hf.
    reflexivity.
  - rewrite (bool_decide_eq_false_2 _ Hout) in Hw.
    destruct (getattr_command (resolve tok)) as [h|] eqn:Hh; [discriminate |].
    assert (Ht : unpack_head (_split_command (Str.lower (Str.strip (value s))))
                 = Returned tok) by now rewrite Hs.
    rewrite (run_unresolved _ valid_url fs s tok Hu He Ht Hh).
    now apply (EndsUnresolved _ _ _ _ tok args).
Qed.

(** A run on any widget state is the run on a fresh widget holding the same
    text, with the other fields and the earlier messages carried along. *)
Lemma run_frame is_likely_url valid_url fs s :
  on_input_submitted is_likely_url valid_url fs s
  = let '(r, s') :=
      on_input_submitted is_likely_url valid_url fs (typed (value s)) in
    (r, mkState (value s') (visiting s) (placeholder s)
                (posted s ++ posted s') (stopped s || stopped s')).
Proof.
  destruct (run_ending is_likely_url valid_url fs (typed (value s)))
    as [Hu Hv | Hu Hv | Hu Hq | Hu He Hf | Hu He Hf Hd | (Hu & He & Hf & Hd)
        | Hu He Hempty | tok args m Hu He Hs Hin Hm | tok args Hu He Hs Hout];
    cbn [typed value] in *.
  - rewrite (run_url _ _ fs s Hu Hv). unfold settled. simpl.
    now rewrite orb_true_r.
  - rewrite (run_invalid_url _ _ fs s Hu Hv). unfold cleared. simpl.
    now rewrite app_nil_r, orb_false_r.
  - rewrite (run_query_fails _ valid_url fs s Hu Hq). unfold cleared. simpl.
    now rewrite app_nil_r, orb_false_r.
  - rewrite (run_file _ valid_url fs s Hu He Hf). unfold settled. simpl.
    now rewrite orb_true_r.
  - rewrite (run_dir _ valid_url fs s Hu He Hf Hd). unfold settled. simpl.
    now rewrite orb_true_r.
  - rewrite (run_other _ valid_url fs s Hu He Hf Hd). unfold cleared. simpl.
    now rewrite app_nil_r, orb_false_r.
  - rewrite (run_no_token _ valid_url fs s Hu He); [| now rewrite Hempty].
    unfold cleared. simpl. now rewrite app_nil_r, orb_false_r.
  - pose proof (handler_lookup_words tok) as Hw.
    rewrite (bool_decide_eq_true_2 _ Hin) in Hw.
    destruct (getattr_command (resolve tok)) as [h|] eqn:Hh; [| discriminate].
    destruct (getattr_command_posts _ _ Hh) as [f Hf].
    rewrite (run_command _ valid_url fs s tok args h Hu He Hs Hh), Hf.
    rewrite (execute_command_token _ tok args _ Hs), Hh, Hf in Hm.
    unfold post_message, cleared, settled, typed in Hm. simpl in Hm.
    injection Hm as <-.
    unfold bind, post_message, event_stop, cleared, settled. simpl.
    now rewrite orb_true_r.
  - pose proof (handler_lookup_words tok) as Hw.
    rewrite (bool_decide_eq_false_2 _ Hout) in Hw.
    destruct (getattr_command (resolve tok)) as [h|] eqn:Hh; [discriminate |].
    assert (Ht : unpack_head (_split_command (Str.lower (Str.strip (value s))))
                 = Returned tok) by (simpl in Hs; now rewrite Hs).
    rewrite (run_unresolved _ valid_url fs s tok Hu He Ht Hh).
    unfold settled. simpl. now rewrite orb_true_r.
Qed.

(** Empty text with no current directory to find: [_is_command] has no
    token to unpack and the run raises with the input already cleared. *)
Example ex_empty_without_cwd :
  on_input_submitted never_url numeric_port_url empty_fs (typed "  ")
  = (Raised ValueError, cleared (typed "  ")).
Proof. reflexivity. Qed.

(** ** The specification's properties *)




(** C2. The whole submitted text is lowercased before it is split, so the
    argument handed to the handler is lowercased too: submitting "CD /Tmp"
    posts a change of directory to "/tmp", which is not the path "/Tmp". *)
Theorem C2_argument_is_lowercased (is_likely_url valid_url : string -> bool)
    (fs : Filesystem) (s : State) :
  is_likely_url "CD /Tmp" = false ->
  exists_ fs (Path "CD /Tmp") = Some false ->
  on_input_submitted is_likely_url valid_url fs (with_value s "CD /Tmp")
  = (Returned tt, settled s "" [LocalChdirCommand (Path "/tmp")] true)
  /\ Path "/tmp" <> Path "/Tmp".
Proof.
  intros Hu He. split; [| discriminate].
  exact (run_command is_likely_url valid_url fs (with_value s "CD /Tmp")
           "cd" "/tmp" command_chdir Hu He eq_refl eq_refl).
Qed.

Lemma C2_argument_is_lowercased_witness :
  on_input_submitted never_url numeric_port_url empty_fs
    (with_value (typed "") "CD /Tmp")
  = (Returned tt,
     settled (typed "") "" [LocalChdirCommand (Path "/tmp")] true)
  /\ Path "/tmp" <> Path "/Tmp".
Proof.
  exact (C2_argument_is_lowercased never_url numeric_port_url empty_fs
           (typed "") eq_refl eq_refl).
Defined.

(** C3, as stated, fails: with "./README.md" an existing regular file, the
    input shows "README.md" afterwards, not "./README.md". *)
Lemma C3_readme_counterexample :
  never_url "./README.md" = false /\
  exists_ (fs_of [("README.md", RegularFile)]) (Path "./README.md")
  = Some true /\
  is_file (fs_of [("README.md", RegularFile)]) (Path "./README.md")
  = Some true /\
  exists s',
    on_input_submitted never_url numeric_port_url
      (fs_of [("README.md", RegularFile)])
      (typed "./README.md") = (Returned tt, s')
    /\ posted s' = [LocalViewCommand (Path "./README.md")]
    /\ value s' <> "./README.md".
Proof.
  repeat (split; [reflexivity |]).
  eexists. split; [vm_compute; reflexivity |].
  split; [reflexivity | discriminate].
Qed.

(** C3, amended. When the stripped text is not taken for a URL and its path
    is an existing regular file, the run posts one [LocalViewCommand] for
    the path, stops the event, and sets the input to [str(path)], the text
    of the parsed path; for "./README.md" that text is "README.md". *)
Theorem C3_local_file (is_likely_url valid_url : string -> bool)
    (fs : Filesystem) (s : State) :
  let submitted := Str.strip (value s) in
  is_likely_url submitted = false ->
  exists_ fs (Path submitted) = Some true ->
  is_file fs (Path submitted) = Some true ->
  on_input_submitted is_likely_url valid_url fs s
  = (Returned tt,
     settled s (Path_str (Path submitted))
             [LocalViewCommand (Path submitted)] true)
  /\ (submitted = "./README.md" -> Path_str (Path submitted) = "README.md").
Proof.
  intros submitted Hu He Hf. split.
  - exact (run_file is_likely_url valid_url fs s Hu He Hf).
  - intros ->. reflexivity.
Qed.

Lemma C3_local_file_witness :
  on_input_submitted never_url numeric_port_url
    (fs_of [("README.md", RegularFile)]) (typed "./README.md")
  = (Returned tt,
     settled (typed "./README.md") (Path_str (Path "./README.md"))
             [LocalViewCommand (Path "./README.md")] true)
  /\ ("./README.md" = "./README.md" ->
      Path_str (Path "./README.md") = "README.md").
Proof.
  exact (C3_local_file never_url numeric_port_url
           (fs_of [("README.md", RegularFile)])
           (typed "./README.md") eq_refl eq_refl eq_refl).
Defined.

(** C4. For every entry of the alias table and every argument text [x], when
    neither the alias form nor the canonical form is taken for a URL or
    names an existing path, both runs dispatch to the same handler with the
    same argument. *)
Theorem C4_alias_same_command (is_likely_url valid_url : string -> bool)
    (fs : Filesystem) (s : State) (alias canonical x : string) :
  _ALIASES !! alias = Some canonical ->
  is_likely_url (Str.strip (alias ++ " " ++ x)) = false ->
  is_likely_url (Str.strip (canonical ++ " " ++ x)) = false ->
  exists_ fs (Path (Str.strip (alias ++ " " ++ x))) = Some false ->
  exists_ fs (Path (Str.strip (canonical ++ " " ++ x))) = Some false ->
  exists (handler : string -> M unit) (argument : string),
    getattr_command (resolve alias) = Some handler
    /\ getattr_command (resolve canonical) = Some handler
    /\ on_input_submitted is_likely_url valid_url fs
         (with_value s (alias ++ " " ++ x))
       = (handler argument >> event_stop) (cleared s)
    /\ on_input_submitted is_likely_url valid_url fs
         (with_value s (canonical ++ " " ++ x))
       = (handler argument >> event_stop) (cleared s).
Proof.
  intros Hin Hua Huc Hea Hec.
  apply aliases_entries in Hin.
  exists (default command_quit (getattr_command canonical)),
         (Str.strip (Str.lstrip (Str.lower (Str.rstrip (" " ++ x))))).
  repeat (apply elem_of_cons in Hin as [Hin | Hin];
    [ injection Hin as -> ->;
      split; [reflexivity |]; split; [reflexivity |]; split;
      [ eapply (run_command is_likely_url valid_url fs (with_value s _));
        [exact Hua | exact Hea
        | apply split_command_word; [discriminate | reflexivity | reflexivity]
        | reflexivity ]
      | eapply (run_command is_likely_url valid_url fs (with_value s _));
        [exact Huc | exact Hec
        | apply split_command_word; [discriminate | reflexivity | reflexivity]
        | reflexivity ] ]
    | ]).
  apply elem_of_nil in Hin. destruct Hin.
Qed.

Lemma C4_alias_same_command_witness :
  exists (handler : string -> M unit) (argument : string),
    getattr_command (resolve "cd") = Some handler
    /\ getattr_command (resolve "chdir") = Some handler
    /\ on_input_submitted never_url numeric_port_url empty_fs
         (with_value (typed "") ("cd" ++ " " ++ "docs"))
       = (handler argument >> event_stop) (cleared (typed ""))
    /\ on_input_submitted never_url numeric_port_url empty_fs
         (with_value (typed "") ("chdir" ++ " " ++ "docs"))
       = (handler argument >> event_stop) (cleared (typed "")).
Proof.
  exact (C4_alias_same_command never_url numeric_port_url empty_fs (typed "")
           "cd" "chdir" "docs" eq_refl eq_refl eq_refl eq_refl eq_refl).
Defined.

(** C5. Submitting "Q" and submitting "q", when neither is taken for a URL
    nor names an existing path, both split to the token "q" with an empty
    argument, resolve it to "quit", and post exactly one [QuitCommand]. *)
Theorem C5_quit_any_case (is_likely_url valid_url : string -> bool)
    (fs : Filesystem) (s : State) :
  is_likely_url "Q" = false -> is_likely_url "q" = false ->
  exists_ fs (Path "Q") = Some false -> exists_ fs (Path "q") = Some false ->
  _split_command (Str.lower "Q") = ["q"; ""]
  /\ _split_command (Str.lower "q") = ["q"; ""]
  /\ resolve "q" = "quit"
  /\ on_input_submitted is_likely_url valid_url fs (with_value s "Q")
     = (Returned tt, settled s "" [QuitCommand] true)
  /\ on_input_submitted is_likely_url valid_url fs (with_value s "q")
     = (Returned tt, settled s "" [QuitCommand] true).
Proof.
  intros HuQ Huq HeQ Heq.
  repeat (split; [reflexivity |]). split.
  - exact (run_command is_likely_url valid_url fs (with_value s "Q")
             "q" "" command_quit HuQ HeQ eq_refl eq_refl).
  - exact (run_command is_likely_url valid_url fs (with_value s "q")
             "q" "" command_quit Huq Heq eq_refl eq_refl).
Qed.

Lemma C5_quit_any_case_witness :
  _split_command (Str.lower "Q") = ["q"; ""]
  /\ _split_command (Str.lower "q") = ["q"; ""]
  /\ resolve "q" = "quit"
  /\ on_input_submitted never_url numeric_port_url empty_fs
       (with_value (typed "") "Q")
     = (Returned tt, settled (typed "") "" [QuitCommand] true)
  /\ on_input_submitted never_url numeric_port_url empty_fs
       (with_value (typed "") "q")
     = (Returned tt, settled (typed "") "" [QuitCommand] true).
Proof.
  exact (C5_quit_any_case never_url numeric_port_url empty_fs (typed "")
           eq_refl eq_refl eq_refl eq_refl).
Defined.

(** C6. When the stripped text is not taken for a URL, its path does not
    exist, and the handler lookup for its alias-resolved leading token finds
    nothing, the run posts exactly one [LocalViewCommand] for the path of
    the text, puts the text back in the input and stops the event. *)
Theorem C6_unresolved_filename (is_likely_url valid_url : string -> bool)
    (fs : Filesystem) (s : State) (tok : string) :
  let submitted := Str.strip (value s) in
  is_likely_url submitted = false ->
  exists_ fs (Path submitted) = Some false ->
  unpack_head (_split_command (Str.lower submitted)) = Returned tok ->
  getattr_command (resolve tok) = None ->
  on_input_submitted is_likely_url valid_url fs s
  = (Returned tt,
     settled s submitted [LocalViewCommand (Path submitted)] true).
Proof. intros submitted. apply run_unresolved. Qed.

Lemma C6_unresolved_filename_witness :
  on_input_submitted never_url numeric_port_url empty_fs
    (typed "not-a-real-file.md")
  = (Returned tt,
     settled (typed "not-a-real-file.md") "not-a-real-file.md"
             [LocalViewCommand (Path "not-a-real-file.md")] true).
Proof.
  exact (C6_unresolved_filename never_url numeric_port_url empty_fs
           (typed "not-a-real-file.md") "not-a-real-file.md"
           eq_refl eq_refl eq_refl eq_refl).
Defined.

(** C7. When the path of the stripped text exists and is neither a regular
    file nor a directory (and the text is not taken for a URL), the run
    returns having posted nothing, with the input cleared and the event's
    stop flag untouched.  That is the only way a run returns without
    stopping the event: a run that returns in any other case has stopped
    it.  And in each of the other outcomes the run does return: a URL that
    can be built, an existing regular file, an existing directory, and text
    that is not empty and names nothing that exists (a command or an
    unresolved file name). *)
Theorem C7_only_unrepresentable_continues
    (is_likely_url valid_url : string -> bool) (fs : Filesystem) (s : State) :
  let submitted := Str.strip (value s) in
  let run := on_input_submitted is_likely_url valid_url fs s in
  (unrepresentable is_likely_url fs submitted ->
   run = (Returned tt, cleared s))
  /\ (forall s', run = (Returned tt, s') ->
      ~ unrepresentable is_likely_url fs submitted -> stopped s' = true)
  /\ (is_likely_url submitted = true -> valid_url submitted = true ->
      exists s', run = (Returned tt, s') /\ stopped s' = true)
  /\ (is_likely_url submitted = false ->
      exists_ fs (Path submitted) = Some true ->
      is_file fs (Path submitted) = Some true ->
      exists s', run = (Returned tt, s') /\ stopped s' = true)
  /\ (is_likely_url submitted = false ->
      exists_ fs (Path submitted) = Some true ->
      is_file fs (Path submitted) = Some false ->
      is_dir fs (Path submitted) = Some true ->
      exists s', run = (Returned tt, s') /\ stopped s' = true)
  /\ (is_likely_url submitted = false ->
      exists_ fs (Path submitted) = Some false ->
      submitted <> "" ->
      exists s', run = (Returned tt, s') /\ stopped s' = true).
Proof.
  cbv zeta. unfold unrepresentable.
  split; [| split; [| split; [| split; [| split]]]].
  - intros (Hu & He & Hf & Hd).
    exact (run_other is_likely_url valid_url fs s Hu He Hf Hd).
  - intros s' Hrun Hnot.
    destruct (run_ending is_likely_url valid_url fs s)
      as [Hu Hv | Hu Hv | Hu Hq | Hu He Hf | Hu He Hf Hd | Hunrep
          | Hu He Hempty | tok args m Hu He Hs Hin Hm | tok args Hu He Hs Hout];
      try discriminate Hrun; try (injection Hrun as <-; reflexivity).
    destruct (Hnot Hunrep).
  - intros Hu Hv. rewrite (run_url _ _ fs s Hu Hv). eauto.
  - intros Hu He Hf. rewrite (run_file _ valid_url fs s Hu He Hf). eauto.
  - intros Hu He Hf Hd. rewrite (run_dir _ valid_url fs s Hu He Hf Hd). eauto.
  - intros Hu He Hne.
    destruct (run_ending is_likely_url valid_url fs s)
      as [Hu' Hv | Hu' Hv | Hu' Hq | Hu' He' Hf | Hu' He' Hf Hd
          | (Hu' & He' & Hf & Hd)
          | Hu' He' Hempty | tok args m Hu' He' Hs Hin Hm
          | tok args Hu' He' Hs Hout];
      try congruence; try (eexists; split; reflexivity).
    destruct Hq as [He' | [He' _]]; congruence.
Qed.

Lemma C7_only_unrepresentable_continues_witness :
  on_input_submitted never_url numeric_port_url
    (fs_of [("/dev/null", Special)]) (typed "/dev/null")
  = (Returned tt, cleared (typed "/dev/null"))
  /\ (exists s',
        on_input_submitted scheme_url numeric_port_url
          (fs_of [(".", Directory)]) (typed "http://example.com:80")
        = (Returned tt, s') /\ stopped s' = true)
  /\ (exists s',
        on_input_submitted never_url numeric_port_url
          (fs_of [(".", Directory)]) (typed "")
        = (Returned tt, s') /\ stopped s' = true)
  /\ (exists s',
        on_input_submitted never_url numeric_port_url
          (fs_of [(".", Directory)]) (typed "nowhere")
        = (Returned tt, s') /\ stopped s' = true).
Proof.
  split; [| split; [| split]].
  - apply (proj1 (C7_only_unrepresentable_continues never_url numeric_port_url
                    (fs_of [("/dev/null", Special)]) (typed "/dev/null"))).
    repeat split.
  - exact (proj1 (proj2 (proj2
             (C7_only_unrepresentable_continues scheme_url numeric_port_url
                (fs_of [(".", Directory)]) (typed "http://example.com:80"))))
             eq_refl eq_refl).
  - exact (proj1 (proj2 (proj2 (proj2 (proj2
             (C7_only_unrepresentable_continues never_url numeric_port_url
                (fs_of [(".", Directory)]) (typed ""))))))
             eq_refl eq_refl eq_refl eq_refl).
  - apply (proj2 (proj2 (proj2 (proj2 (proj2
             (C7_only_unrepresentable_continues never_url numeric_port_url
                (fs_of [(".", Directory)]) (typed "nowhere"))))))
             eq_refl eq_refl).
    discriminate.
Defined.

(** C8. When [_is_command] has returned true for a text, [_execute_command]
    on that text finds the handler of the alias-resolved leading token, runs
    it on the stripped argument, and returns: from no state does it raise. *)
Theorem C8_execute_after_is_command (v : string) (s s1 : State) :
  _is_command v s = (Returned true, s1) ->
  exists (tok args : string) (handler : string -> M unit),
    _split_command v = [tok; args]
    /\ getattr_command (resolve tok) = Some handler
    /\ forall s0 : State,
         _execute_command v s0 = handler (Str.strip args) s0
         /\ fst (_execute_command v s0) = Returned tt.
Proof.
  unfold _is_command, _execute_command, bind, lift, ret.
  destruct (split_command_shape v) as [-> | (tok & args & ->)];
    cbn [unpack_head unpack_pair]; [discriminate |].
  destruct (getattr_command (resolve tok)) as [h|] eqn:Hh;
    cbn [is_not_None]; [| discriminate].
  intros _. exists tok, args, h.
  split; [reflexivity |]. split; [exact Hh |]. intros s0.
  destruct (getattr_command_posts _ _ Hh) as [f Hf].
  rewrite Hf. split; reflexivity.
Qed.

Lemma C8_execute_after_is_command_witness :
  exists (tok args : string) (handler : string -> M unit),
    _split_command "toc  now " = [tok; args]
    /\ getattr_command (resolve tok) = Some handler
    /\ forall s0 : State,
         _execute_command "toc  now " s0 = handler (Str.strip args) s0
         /\ fst (_execute_command "toc  now " s0) = Returned tt.
Proof.
  exact (C8_execute_after_is_command "toc  now " (typed "") (typed "")
           eq_refl).
Defined.

(** C9. Two runs on widgets holding the same text, under URL tests and
    filesystems that answer alike at the stripped text and its path, end the
    same way: same result, same final input value, same messages posted,
    same effect on the stop flag. *)
Theorem C9_same_answers_same_outcome (url1 url2 valid_url : string -> bool)
    (fs1 fs2 : Filesystem) (s1 s2 : State) :
  let submitted := Str.strip (value s1) in
  value s1 = value s2 ->
  url1 submitted = url2 submitted ->
  exists_ fs1 (Path submitted) = exists_ fs2 (Path submitted) ->
  is_file fs1 (Path submitted) = is_file fs2 (Path submitted) ->
  is_dir fs1 (Path submitted) = is_dir fs2 (Path submitted) ->
  exists (r : Result unit) (v : string) (msgs : list Message) (stop : bool),
    on_input_submitted url1 valid_url fs1 s1
    = (r, mkState v (visiting s1) (placeholder s1)
                  (posted s1 ++ msgs) (stopped s1 || stop))
    /\ on_input_submitted url2 valid_url fs2 s2
       = (r, mkState v (visiting s2) (placeholder s2)
                     (posted s2 ++ msgs) (stopped s2 || stop)).
Proof.
  intros submitted Hv Hu He Hf Hd.
  rewrite (run_frame url1 valid_url fs1 s1), (run_frame url2 valid_url fs2 s2),
    <- Hv.
  rewrite <- (run_agree url1 url2 valid_url valid_url fs1 fs2
                (typed (value s1)) Hu eq_refl He Hf Hd).
  destruct (on_input_submitted url1 valid_url fs1 (typed (value s1)))
    as [r s'].
  exists r, (value s'), (posted s'), (stopped s'). split; reflexivity.
Qed.

Lemma C9_same_answers_same_outcome_witness :
  exists (r : Result unit) (v : string) (msgs : list Message) (stop : bool),
    on_input_submitted never_url numeric_port_url
      (fs_of [("notes", Directory)])
      (mkState " notes" "" "" [] false)
    = (r, mkState v "" "" ([] ++ msgs) (false || stop))
    /\ on_input_submitted scheme_url numeric_port_url
         (fs_of [("notes", Directory); ("README.md", RegularFile)])
         (mkState " notes" "a.md" "a.md" [QuitCommand] true)
       = (r, mkState v "a.md" "a.md" ([QuitCommand] ++ msgs) (true || stop)).
Proof.
  exact (C9_same_answers_same_outcome never_url scheme_url numeric_port_url
           (fs_of [("notes", Directory)])
           (fs_of [("notes", Directory); ("README.md", RegularFile)])
           (mkState " notes" "" "" [] false)
           (mkState " notes" "a.md" "a.md" [QuitCommand] true)
           eq_refl eq_refl eq_refl eq_refl eq_refl).
Defined.

(** C10. Text that strips to the empty string is parsed to the same path as
    ".", whose text is "."; so when the empty string is not taken for a URL
    and the current directory exists as a directory, the run posts one
    [LocalChdirCommand] for that path, leaves the input cleared and stops
    the event. *)
Theorem C10_empty_is_current_directory
    (is_likely_url valid_url : string -> bool) (fs : Filesystem) (s : State) :
  Str.strip (value s) = "" ->
  is_likely_url "" = false ->
  exists_ fs (Path ".") = Some true ->
  is_file fs (Path ".") = Some false ->
  is_dir fs (Path ".") = Some true ->
  Path "" = Path "."
  /\ Path_str (Path "") = "."
  /\ on_input_submitted is_likely_url valid_url fs s
     = (Returned tt, settled s "" [LocalChdirCommand (Path ".")] true).
Proof.
  intros Hs Hu He Hf Hd. split; [reflexivity |]. split; [reflexivity |].
  pose proof (run_dir is_likely_url valid_url fs s) as H. rewrite Hs in H.
  exact (H Hu He Hf Hd).
Qed.

Lemma C10_empty_is_current_directory_witness :
  Path "" = Path "."
  /\ Path_str (Path "") = "."
  /\ on_input_submitted never_url numeric_port_url
       (fs_of [(".", Directory)]) (typed "   ")
     = (Returned tt,
        settled (typed "   ") "" [LocalChdirCommand (Path ".")] true).
Proof.
  exact (C10_empty_is_current_directory never_url numeric_port_url
           (fs_of [(".", Directory)])
           (typed "   ") eq_refl eq_refl eq_refl eq_refl eq_refl).
Defined.

(** ** Further facts about the string operations *)

Lemma lower_char_idem c : Str.lower_char (Str.lower_char c) = Str.lower_char c.
Proof. destruct c as [[] [] [] [] [] [] [] []]; reflexivity. Qed.

Lemma lower_idem s : Str.lower (Str.lower s) = Str.lower s.
Proof.
  induction s as [|c s IH]; simpl; [reflexivity |].
  now rewrite lower_char_idem, IH.
Qed.

Lemma lstrip_lower s : Str.lstrip (Str.lower s) = Str.lower (Str.lstrip s).
Proof.
  induction s as [|c s IH]; simpl; [reflexivity |].
  rewrite isspace_lower_char. destruct (Str.isspace c); [exact IH | reflexivity].
Qed.

Lemma rstrip_lower s : Str.rstrip (Str.lower s) = Str.lower (Str.rstrip s).
Proof.
  induction s as [|c s IH]; simpl; [reflexivity |].
  rewrite IH, isspace_lower_char.
  destruct (Str.rstrip s); simpl; [destruct (Str.isspace c) |]; reflexivity.
Qed.

Lemma strip_lower s : Str.strip (Str.lower s) = Str.lower (Str.strip s).
Proof. unfold Str.strip. now rewrite lstrip_lower, rstrip_lower. Qed.

Lemma span_word_lower s :
  Str.span_word (Str.lower s)
  = (Str.lower (fst (Str.span_word s)), Str.lower (snd (Str.span_word s))).
Proof.
  induction s as [|c s IH]; simpl; [reflexivity |].
  rewrite isspace_lower_char. destruct (Str.isspace c); [reflexivity |].
  rewrite IH. destruct (Str.span_word s); reflexivity.
Qed.

Lemma span_word_decompose s :
  s = fst (Str.span_word s) ++ snd (Str.span_word s)
  /\ spaceless (fst (Str.span_word s)) = true
  /\ at_word_end (snd (Str.span_word s)) = true.
Proof.
  induction s as [|c s (IH1 & IH2 & IH3)]; simpl; [now repeat split |].
  destruct (Str.isspace c) eqn:E; simpl.
  - now repeat split.
  - destruct (Str.span_word s) as [w rest]. simpl in *.
    split; [change (String c s = String c (w ++ rest)); congruence |].
    split; [| exact IH3].
    unfold spaceless in *. simpl. now rewrite E.
Qed.

Lemma span_word_token s :
  s <> "" -> at_word_start s = true -> fst (Str.span_word s) <> "".
Proof.
  destruct s as [|c s]; [congruence |]. simpl. intros _ E.
  apply negb_true_iff in E. rewrite E.
  destruct (Str.span_word s); discriminate.
Qed.

Lemma lstrip_decompose s :
  exists lead, blank lead = true /\ s = lead ++ Str.lstrip s.
Proof.
  induction s as [|c s (lead & Hb & Hs)]; simpl.
  - now exists "".
  - destruct (Str.isspace c) eqn:E.
    + exists (String c lead). split.
      * unfold blank in *. simpl. now rewrite E.
      * change (String c s = String c (lead ++ Str.lstrip s)). congruence.
    + now exists "".
Qed.

Lemma lstrip_blank s : Str.lstrip s = "" <-> blank s = true.
Proof.
  unfold blank. induction s as [|c s IH]; simpl; [tauto |].
  destruct (Str.isspace c); simpl; [exact IH |]. split; discriminate.
Qed.

Lemma rstrip_idem s : Str.rstrip (Str.rstrip s) = Str.rstrip s.
Proof.
  induction s as [|c s IH]; simpl; [reflexivity |].
  destruct (Str.rstrip s) as [|d r'] eqn:E.
  - destruct (Str.isspace c) eqn:Ec; simpl; [reflexivity | now rewrite Ec].
  - change (Str.rstrip (String c (String d r')))
      with (match Str.rstrip (String d r') with
            | "" => if Str.isspace c then "" else String c ""
            | r0 => String c r0
            end).
    now rewrite IH.
Qed.

Lemma lstrip_rstrip s : Str.lstrip (Str.rstrip s) = Str.rstrip (Str.lstrip s).
Proof.
  induction s as [|c s IH]; [reflexivity |].
  change (Str.rstrip (String c s))
    with (match Str.rstrip s with
          | "" => if Str.isspace c then "" else String c ""
          | r0 => String c r0
          end).
  cbn [Str.lstrip]. destruct (Str.isspace c) eqn:Ec.
  - rewrite <- IH. destruct (Str.rstrip s); simpl; [reflexivity |].
    now rewrite Ec.
  - change (Str.rstrip (String c s))
      with (match Str.rstrip s with
            | "" => if Str.isspace c then "" else String c ""
            | r0 => String c r0
            end).
    rewrite Ec. destruct (Str.rstrip s); simpl; now rewrite Ec.
Qed.

Lemma strip_idem s : Str.strip (Str.strip s) = Str.strip s.
Proof.
  unfold Str.strip.
  rewrite lstrip_rstrip, rstrip_idem.
  now rewrite (lstrip_at_word_start _ (at_word_start_lstrip s)).
Qed.

(** What [_split_command] computes, in one equation. *)
Lemma split_command_eq v :
  _split_command v
  = match Str.lstrip v with
    | "" => []
    | s1 => [fst (Str.span_word s1); Str.lstrip (snd (Str.span_word s1))]
    end.
Proof.
  unfold _split_command, Str.split_None_1.
  destruct (Str.lstrip v) as [|c r]; [reflexivity |].
  destruct (Str.span_word (String c r)) as [w rest]. simpl.
  destruct (Str.lstrip rest); reflexivity.
Qed.

Lemma at_word_end_rstrip s :
  at_word_end s = true -> at_word_end (Str.rstrip s) = true.
Proof.
  destruct s as [|c s]; [reflexivity |]. simpl. intros E.
  destruct (Str.rstrip s); [now rewrite E | exact E].
Qed.

Lemma strip_rstrip s : Str.strip (Str.rstrip s) = Str.strip s.
Proof. unfold Str.strip. now rewrite lstrip_rstrip, rstrip_idem. Qed.

Lemma spaceless_nonempty_start t y :
  t <> "" -> spaceless t = true -> at_word_start (t ++ y) = true.
Proof.
  destruct t as [|c t]; [congruence |]. intros _. unfold spaceless. simpl.
  intros H. now apply andb_true_iff in H as [H _].
Qed.

Lemma app_nonempty (t y : string) : t <> "" -> t ++ y <> "".
Proof. destruct t; [congruence | discriminate]. Qed.

(** [_split_command] on stripped text: same token, tail without its
    trailing whitespace. *)
Lemma split_command_strip v :
  _split_command (Str.strip v)
  = match _split_command v with
    | [tok; args] => [tok; Str.rstrip args]
    | other => other
    end.
Proof.
  rewrite !split_command_eq.
  rewrite (lstrip_at_word_start _ (at_word_start_strip v)). unfold Str.strip.
  pose proof (at_word_start_lstrip v) as Hstart.
  destruct (Str.lstrip v) as [|c r] eqn:E; [reflexivity |].
  destruct (span_word_decompose (String c r)) as (Hd & Hsp & Hend).
  assert (Hne : fst (Str.span_word (String c r)) <> "")
    by (apply span_word_token; [discriminate | exact Hstart]).
  set (w := fst (Str.span_word (String c r))) in *.
  set (rest := snd (Str.span_word (String c r))) in *.
  rewrite Hd, (rstrip_spaceless_app _ _ Hsp).
  destruct (w ++ Str.rstrip rest) as [|d q] eqn:E2.
  { destruct (app_nonempty w (Str.rstrip rest) Hne E2). }
  rewrite <- E2.
  rewrite (span_word_spaceless_app _ _ Hsp (at_word_end_rstrip _ Hend)).
  cbn [fst snd]. now rewrite lstrip_rstrip.
Qed.

Lemma split_command_token v :
  Str.lstrip v <> "" ->
  _split_command v
  = [fst (Str.span_word (Str.lstrip v));
     Str.lstrip (snd (Str.span_word (Str.lstrip v)))].
Proof.
  intros H. rewrite split_command_eq.
  destruct (Str.lstrip v); [congruence | reflexivity].
Qed.

(** Blank text splits to nothing, other text to a token and a tail. *)
Lemma split_command_blank_cases v :
  (blank v = true /\ _split_command v = [])
  \/ (exists tok args, blank v = false /\ _split_command v = [tok; args]).
Proof.
  rewrite split_command_eq. destruct (blank v) eqn:Hb.
  - left. apply lstrip_blank in Hb. now rewrite Hb.
  - right. destruct (Str.lstrip v) eqn:E; [| eauto].
    apply lstrip_blank in E. congruence.
Qed.

(** ** Properties of [_split_command] *)

(** X1. [_split_command] returns the empty list exactly on text made of
    whitespace only (the empty text included), and otherwise a list of
    exactly two elements: never one, never more. *)
Theorem X1_split_command_length (v : string) :
  (_split_command v = [] <-> blank v = true)
  /\ (blank v = false -> length (_split_command v) = 2).
Proof.
  rewrite split_command_eq.
  destruct (blank v) eqn:Hb.
  - apply lstrip_blank in Hb. rewrite Hb. split; [tauto | discriminate].
  - destruct (Str.lstrip v) eqn:E.
    + apply lstrip_blank in E. congruence.
    + split; [split; discriminate | reflexivity].
Qed.

Lemma X1_split_command_length_witness :
  length (_split_command "  toc") = 2.
Proof.
  exact (proj2 (X1_split_command_length "  toc") eq_refl).
Defined.

(** X2. When [_split_command] returns a token and a tail, the token is not
    empty and holds no whitespace, the tail does not begin with whitespace,
    and the text is: leading whitespace, the token, a whitespace gap, the
    tail; the gap is not empty when the tail is not. *)
Theorem X2_split_command_decomposes (v tok args : string) :
  _split_command v = [tok; args] ->
  tok <> "" /\ spaceless tok = true /\ at_word_start args = true
  /\ exists lead gap : string,
       blank lead = true /\ blank gap = true
       /\ v = lead ++ tok ++ gap ++ args
       /\ (args <> "" -> gap <> "").
Proof.
  rewrite split_command_eq.
  pose proof (at_word_start_lstrip v) as Hstart.
  destruct (lstrip_decompose v) as (lead & Hlead & Hv).
  destruct (Str.lstrip v) as [|c r] eqn:E; [discriminate |].
  destruct (span_word_decompose (String c r)) as (Hd & Hsp & Hend).
  assert (Hne : fst (Str.span_word (String c r)) <> "")
    by (apply span_word_token; [discriminate | exact Hstart]).
  set (w := fst (Str.span_word (String c r))) in *.
  set (rest := snd (Str.span_word (String c r))) in *.
  intros H.
  assert (tok = w /\ args = Str.lstrip rest) as [-> ->]
    by (injection H as H1 H2; split; [exact (eq_sym H1) | exact (eq_sym H2)]).
  clear H. split; [exact Hne |]. split; [exact Hsp |].
  split; [apply at_word_start_lstrip |].
  destruct (lstrip_decompose rest) as (gap & Hgap & Hrest).
  exists lead, gap. split; [exact Hlead |]. split; [exact Hgap |]. split.
  - rewrite <- Hrest, <- Hd. exact Hv.
  - intros Hargs ->. change ("" ++ Str.lstrip rest) with (Str.lstrip rest) in Hrest.
    rewrite <- Hrest in Hargs.
    destruct rest as [|d rest']; [congruence |].
    pose proof (at_word_start_lstrip (String d rest')) as Hs.
    rewrite <- Hrest in Hs. simpl in Hs, Hend. rewrite Hend in Hs.
    discriminate.
Qed.

Lemma X2_split_command_decomposes_witness :
  "cd" <> "" /\ spaceless "cd" = true /\ at_word_start "My Docs " = true
  /\ exists lead gap : string,
       blank lead = true /\ blank gap = true
       /\ " cd   My Docs " = lead ++ "cd" ++ gap ++ "My Docs "
       /\ ("My Docs " <> "" -> gap <> "").
Proof.
  exact (X2_split_command_decomposes " cd   My Docs " "cd" "My Docs " eq_refl).
Defined.

(** X3. Lowercasing commutes with splitting: the split of the lowercased
    text is the split of the text with token and tail both lowercased. *)
Theorem X3_split_command_lower (v : string) :
  _split_command (Str.lower v) = map Str.lower (_split_command v).
Proof.
  destruct (string_dec (Str.lstrip v) "") as [E | E].
  - rewrite !split_command_eq, lstrip_lower, E. reflexivity.
  - rewrite (split_command_token v E), split_command_token.
    + rewrite lstrip_lower, span_word_lower. cbn [fst snd map].
      now rewrite lstrip_lower.
    + rewrite lstrip_lower. intros H.
      apply (proj1 (lower_empty_iff _)) in H. exact (E H).
Qed.

(** ** Which words are commands *)









(** X4. [_is_command] says yes exactly when the leading token is one of the
    six handler names or one of the seven aliases, compared as written
    (case matters), and it leaves the widget as it found it. *)
Theorem X4_is_command_words (v tok args : string) (s : State) :
  _split_command v = [tok; args] ->
  _is_command v s = (Returned (bool_decide (tok ∈ command_words)), s).
Proof.
  intros H. unfold _is_command, bind, lift, ret. rewrite H.
  cbn [unpack_head]. now rewrite handler_lookup_words.
Qed.

Lemma X4_is_command_words_witness :
  _is_command "TOC now" (typed "x")
  = (Returned (bool_decide ("TOC" ∈ command_words)), typed "x")
  /\ bool_decide ("TOC" ∈ command_words) = false.
Proof.
  split; [| reflexivity].
  exact (X4_is_command_words "TOC now" "TOC" "now" (typed "x") eq_refl).
Defined.

(** X5. On text made of whitespace only, the empty text included,
    [_is_command] raises [ValueError]; on any other text it returns.  In
    both cases the widget is left as it was. *)
Theorem X5_is_command_blank (v : string) (s : State) :
  snd (_is_command v s) = s
  /\ (blank v = true -> fst (_is_command v s) = Raised ValueError)
  /\ (blank v = false -> exists b, fst (_is_command v s) = Returned b).
Proof.
  destruct (split_command_blank_cases v) as [[Hb Hs] | (tok & args & Hb & Hs)];
    unfold _is_command, bind, lift, ret; rewrite Hs; cbn [unpack_head].
  - split; [reflexivity |]. split; [reflexivity | congruence].
  - split; [reflexivity |]. split; [congruence | eauto].
Qed.

Lemma X5_is_command_blank_witness :
  fst (_is_command "   " (typed "   ")) = Raised ValueError
  /\ exists b, fst (_is_command "zz" (typed "")) = Returned b.
Proof.
  split.
  - exact (proj1 (proj2 (X5_is_command_blank "   " (typed "   "))) eq_refl).
  - exact (proj2 (proj2 (X5_is_command_blank "zz" (typed ""))) eq_refl).
Defined.

(** ** Properties of [_execute_command] *)



Lemma strip_blank s : blank s = true -> Str.strip s = "".
Proof. intros H. unfold Str.strip. apply lstrip_blank in H. now rewrite H. Qed.

(** X6. [_execute_command] raises [ValueError] on text made of whitespace
    only, and [AttributeError] on text whose leading token is not a command
    word; either way nothing is posted and the widget is left as it was. *)
Theorem X6_execute_command_errors (v : string) (s : State) :
  (blank v = true -> _execute_command v s = (Raised ValueError, s))
  /\ (forall tok args,
        _split_command v = [tok; args] -> tok ∉ command_words ->
        _execute_command v s = (Raised AttributeError, s)).
Proof.
  split.
  - intros Hb.
    destruct (split_command_blank_cases v) as [[_ Hs] | (tok & args & Hn & _)];
      [| congruence].
    unfold _execute_command, bind, lift. now rewrite Hs.
  - intros tok args Hs Hout. rewrite (execute_command_token v tok args s Hs).
    pose proof (handler_lookup_words tok) as Hw.
    rewrite (bool_decide_eq_false_2 _ Hout) in Hw.
    destruct (getattr_command (resolve tok)); [discriminate | reflexivity].
Qed.

Lemma X6_execute_command_errors_witness :
  _execute_command " " (typed "x") = (Raised ValueError, typed "x")
  /\ _execute_command "open a.md" (typed "x")
     = (Raised AttributeError, typed "x").
Proof.
  split.
  - exact (proj1 (X6_execute_command_errors " " (typed "x")) eq_refl).
  - refine (proj2 (X6_execute_command_errors "open a.md" (typed "x"))
              "open" "a.md" eq_refl _).
    apply (bool_decide_unpack _). reflexivity.
Defined.

Lemma execute_command_posts v tok args s :
  _split_command v = [tok; args] -> tok ∈ command_words ->
  exists m : Message,
    _execute_command v s = (Returned tt, settled s (value s) [m] (stopped s)).
Proof.
  intros Hs Hin. rewrite (execute_command_token v tok args s Hs).
  pose proof (handler_lookup_words tok) as Hw.
  rewrite (bool_decide_eq_true_2 _ Hin) in Hw.
  destruct (getattr_command (resolve tok)) as [h|] eqn:Hh; [| discriminate].
  destruct (getattr_command_posts _ _ Hh) as [f Hf]. rewrite Hf.
  now exists (f (Str.strip args)).
Qed.

(** X7. On text whose leading token is a command word, [_execute_command]
    returns having posted exactly one message and changed nothing else: the
    input value, the placeholder, the visited location and the event's stop
    flag are as before. *)
Theorem X7_execute_command_posts_one (v tok args : string) (s : State) :
  _split_command v = [tok; args] -> tok ∈ command_words ->
  exists m : Message,
    _execute_command v s = (Returned tt, settled s (value s) [m] (stopped s)).
Proof.
  apply execute_command_posts.
Qed.

Lemma X7_execute_command_posts_one_witness :
  exists m : Message,
    _execute_command "h" (mkState "h" "a.md" "a.md" [AboutCommand] false)
    = (Returned tt,
       settled (mkState "h" "a.md" "a.md" [AboutCommand] false) "h" [m] false).
Proof.
  refine (X7_execute_command_posts_one "h" "h" ""
            (mkState "h" "a.md" "a.md" [AboutCommand] false) eq_refl _).
  apply (bool_decide_unpack _). reflexivity.
Defined.

(** X8. Only [chdir] looks at its argument: two texts with the same leading
    token, other than "cd" and "chdir", give the same result whatever
    follows the token. *)
Theorem X8_argument_ignored (v v' tok args args' : string) (s : State) :
  _split_command v = [tok; args] -> _split_command v' = [tok; args'] ->
  tok <> "cd" -> tok <> "chdir" ->
  _execute_command v s = _execute_command v' s.
Proof.
  intros Hs Hs' Hcd Hchdir.
  rewrite (execute_command_token v tok args s Hs),
    (execute_command_token v' tok args' s Hs').
  destruct (getattr_command (resolve tok)) as [h|] eqn:Hh; [| reflexivity].
  assert (Hin : tok ∈ command_words).
  { apply (bool_decide_unpack _). rewrite <- handler_lookup_words, Hh.
    reflexivity. }
  unfold command_words in Hin.
  repeat (apply elem_of_cons in Hin as [-> | Hin];
          [first [congruence | injection Hh as <-; reflexivity] |]).
  apply elem_of_nil in Hin. destruct Hin.
Qed.

Lemma X8_argument_ignored_witness :
  _execute_command "q now" (typed "") = _execute_command "q  later " (typed "").
Proof.
  refine (X8_argument_ignored "q now" "q  later " "q" "now" "later "
            (typed "") eq_refl eq_refl _ _); discriminate.
Defined.

(** X9. The [chdir] command, under either of its names, posts a change of
    directory to the path of its stripped argument; with no argument that
    path is the path of ".", the current directory. *)
Theorem X9_chdir_target (v tok args : string) (s : State) :
  _split_command v = [tok; args] -> resolve tok = "chdir" ->
  _execute_command v s
  = (Returned tt,
     settled s (value s) [LocalChdirCommand (Path (Str.strip args))]
             (stopped s))
  /\ (args = "" -> Path (Str.strip args) = Path ".").
Proof.
  intros Hs Hr. rewrite (execute_command_token v tok args s Hs), Hr.
  split; [reflexivity |]. intros ->. reflexivity.
Qed.

Lemma X9_chdir_target_witness :
  _execute_command " cd " (typed "")
  = (Returned tt,
     settled (typed "") "" [LocalChdirCommand (Path (Str.strip ""))] false)
  /\ ("" = "" -> Path (Str.strip "") = Path ".").
Proof.
  exact (X9_chdir_target " cd " "cd" "" (typed "") eq_refl eq_refl).
Defined.

(** X10. Whitespace around the text does not matter to the command
    functions: [_is_command] and [_execute_command] give the same result on
    a text and on the text stripped. *)
Theorem X10_commands_ignore_outer_space (v : string) (s : State) :
  _is_command (Str.strip v) s = _is_command v s
  /\ _execute_command (Str.strip v) s = _execute_command v s.
Proof.
  pose proof (split_command_strip v) as Hst.
  destruct (split_command_blank_cases v) as [[_ Hs] | (tok & args & _ & Hs)];
    rewrite Hs in Hst.
  - unfold _is_command, _execute_command, bind, lift. now rewrite Hs, Hst.
  - split.
    + unfold _is_command, bind, lift. now rewrite Hs, Hst.
    + rewrite (execute_command_token _ _ _ s Hst),
        (execute_command_token _ _ _ s Hs).
      now rewrite strip_rstrip.
Qed.

(** X11. Every alias is a lowercase word without whitespace, names a
    registered handler, and is not the name of a handler itself; and its
    target is not an alias, so resolving twice is resolving once. *)
Theorem X11_alias_table (alias canonical : string) :
  _ALIASES !! alias = Some canonical ->
  alias <> "" /\ spaceless alias = true /\ Str.lower alias = alias
  /\ is_not_None (getattr_command canonical) = true
  /\ getattr_command alias = None
  /\ _ALIASES !! canonical = None
  /\ resolve (resolve alias) = resolve alias.
Proof.
  intros H. apply aliases_entries in H.
  repeat (apply elem_of_cons in H as [H | H];
          [injection H as -> ->; repeat split; discriminate |]).
  apply elem_of_nil in H. destruct H.
Qed.

Lemma X11_alias_table_witness :
  "toc" <> "" /\ spaceless "toc" = true /\ Str.lower "toc" = "toc"
  /\ is_not_None (getattr_command "contents") = true
  /\ getattr_command "toc" = None
  /\ _ALIASES !! "contents" = None
  /\ resolve (resolve "toc") = resolve "toc".
Proof. exact (X11_alias_table "toc" "contents" eq_refl). Defined.

(** ** Properties of [on_input_submitted] *)

(** X12. A run never touches the visited location or the placeholder, never
    drops or reorders the messages posted before it, posts at most one new
    message, and never resets an event that was already stopped. *)
Theorem X12_submit_frame (is_likely_url valid_url : string -> bool)
    (fs : Filesystem) (s : State) :
  exists (r : Result unit) (v : string) (msgs : list Message) (stop : bool),
    on_input_submitted is_likely_url valid_url fs s
    = (r, mkState v (visiting s) (placeholder s) (posted s ++ msgs) stop)
    /\ length msgs <= 1
    /\ (stopped s = true -> stop = true).
Proof.
  destruct (run_ending is_likely_url valid_url fs s);
    try (do 4 eexists; split;
         [reflexivity | split; [simpl; lia | reflexivity]]);
    eexists _, "", [], (stopped s); unfold cleared;
    rewrite app_nil_r; (split; [reflexivity | split; [simpl; lia | tauto]]).
Qed.

(** X13. A run raises in exactly three situations, each time with the input
    already cleared and nothing posted: [InvalidURL] when the URL test
    accepts the stripped text and no URL can be built from it; [OSError]
    when the text is not taken for a URL and a filesystem query that the
    handler makes on its path fails; [ValueError] when the text is empty, is
    not taken for a URL and its path is reported missing.  In particular a
    run never raises [AttributeError]. *)
Theorem X13_submit_raises (is_likely_url valid_url : string -> bool)
    (fs : Filesystem) (s : State) (e : Exception) (s' : State) :
  let submitted := Str.strip (value s) in
  on_input_submitted is_likely_url valid_url fs s = (Raised e, s')
  <-> s' = cleared s
      /\ ((e = InvalidURL /\ is_likely_url submitted = true
           /\ valid_url submitted = false)
          \/ (e = OSError /\ is_likely_url submitted = false
              /\ query_fails fs submitted)
          \/ (e = ValueError /\ is_likely_url submitted = false
              /\ exists_ fs (Path submitted) = Some false
              /\ submitted = "")).
Proof.
  cbv zeta. split.
  - intros Hrun.
    destruct (run_ending is_likely_url valid_url fs s)
      as [Hu Hv | Hu Hv | Hu Hq | Hu He Hf | Hu He Hf Hd | Hunrep
          | Hu He Hempty | tok args m Hu He Hs Hin Hm | tok args Hu He Hs Hout];
      try discriminate Hrun; injection Hrun as <- <-;
      (split; [reflexivity |]); tauto.
  - intros (-> & [(-> & Hu & Hv) | [(-> & Hu & Hq) | (-> & Hu & He & Hempty)]]).
    + exact (run_invalid_url is_likely_url valid_url fs s Hu Hv).
    + exact (run_query_fails is_likely_url valid_url fs s Hu Hq).
    + apply (run_no_token is_likely_url valid_url fs s Hu He).
      now rewrite Hempty.
Qed.

Lemma X13_submit_raises_witness :
  on_input_submitted scheme_url numeric_port_url (fs_of [(".", Directory)])
    (typed "http://example.com:abc")
  = (Raised InvalidURL, cleared (typed "http://example.com:abc"))
  /\ on_input_submitted never_url numeric_port_url
       (fs_of [(".", Directory); ("vault", Inaccessible)]) (typed "vault")
     = (Raised OSError, cleared (typed "vault"))
  /\ on_input_submitted never_url numeric_port_url (fs_of []) (typed " ")
     = (Raised ValueError, cleared (typed " ")).
Proof.
  split; [| split].
  - apply (proj2 (X13_submit_raises scheme_url numeric_port_url
                    (fs_of [(".", Directory)])
                    (typed "http://example.com:abc") InvalidURL _)).
    split; [reflexivity |]. left. repeat split.
  - apply (proj2 (X13_submit_raises never_url numeric_port_url
                    (fs_of [(".", Directory); ("vault", Inaccessible)])
                    (typed "vault") OSError _)).
    split; [reflexivity |]. right. left.
    split; [reflexivity |]. split; [reflexivity |]. left. reflexivity.
  - apply (proj2 (X13_submit_raises never_url numeric_port_url (fs_of [])
                    (typed " ") ValueError _)).
    split; [reflexivity |]. right. right. repeat split.
Defined.

(** X14. Only the stripped text matters: whitespace typed before or after
    the text changes nothing in the run. *)
Theorem X14_submit_ignores_outer_space
    (is_likely_url valid_url : string -> bool) (fs : Filesystem) (s : State)
    (v : string) :
  on_input_submitted is_likely_url valid_url fs (with_value s (Str.strip v))
  = on_input_submitted is_likely_url valid_url fs (with_value s v).
Proof.
  unfold on_input_submitted, bind, get_value, set_value, with_value.
  cbn [value visiting placeholder posted stopped].
  now rewrite strip_idem.
Qed.

(** X15. The filesystem is asked before the commands: text that is not taken
    for a URL and names something that exists is never run as a command,
    even when it is a command word.  The run views it, changes directory to
    it, or ignores it; or, when the query for its kind fails, raises
    [OSError] with nothing posted. *)
Theorem X15_existing_path_before_command
    (is_likely_url valid_url : string -> bool) (fs : Filesystem) (s : State) :
  let submitted := Str.strip (value s) in
  let run := on_input_submitted is_likely_url valid_url fs s in
  is_likely_url submitted = false ->
  exists_ fs (Path submitted) = Some true ->
  (is_file fs (Path submitted) = Some true
   /\ run = (Returned tt,
             settled s (Path_str (Path submitted))
                     [LocalViewCommand (Path submitted)] true))
  \/ (is_file fs (Path submitted) = Some false
      /\ is_dir fs (Path submitted) = Some true
      /\ run = (Returned tt,
                settled s "" [LocalChdirCommand (Path submitted)] true))
  \/ (is_file fs (Path submitted) = Some false
      /\ is_dir fs (Path submitted) = Some false
      /\ run = (Returned tt, cleared s))
  \/ (query_fails fs submitted /\ run = (Raised OSError, cleared s)).
Proof.
  cbv zeta. intros Hu He.
  destruct (run_ending is_likely_url valid_url fs s)
    as [Hu' Hv | Hu' Hv | Hu' Hq | Hu' He' Hf | Hu' He' Hf Hd
        | (Hu' & He' & Hf & Hd)
        | Hu' He' Hempty | tok args m Hu' He' Hs Hin Hm
        | tok args Hu' He' Hs Hout];
    try congruence; tauto.
Qed.

Lemma X15_existing_path_before_command_witness :
  bool_decide ("quit" ∈ command_words) = true
  /\ on_input_submitted never_url numeric_port_url
       (fs_of [("quit", Directory)]) (typed "quit")
     = (Returned tt,
        settled (typed "quit") "" [LocalChdirCommand (Path "quit")] true).
Proof.
  split; [reflexivity |].
  destruct (X15_existing_path_before_command never_url numeric_port_url
              (fs_of [("quit", Directory)]) (typed "quit") eq_refl eq_refl)
    as [[H _] | [(_ & _ & H) | [(_ & H & _) | [[H | [_ [H | [_ H]]]] _]]]];
    [discriminate H | exact H | discriminate H
     | discriminate H | discriminate H | discriminate H].
Defined.

(** X16. The input is put back only together with a request to view a local
    file: after a run the input is empty, or the run has posted a
    [LocalViewCommand] for the path of the stripped text and the input holds
    that text or the text of that path. *)
Theorem X16_input_restored_with_view
    (is_likely_url valid_url : string -> bool) (fs : Filesystem) (s : State) :
  let submitted := Str.strip (value s) in
  let after := snd (on_input_submitted is_likely_url valid_url fs s) in
  value after = ""
  \/ (posted after = (posted s ++ [LocalViewCommand (Path submitted)])%list
      /\ (value after = submitted
          \/ value after = Path_str (Path submitted))).
Proof.
  cbv zeta.
  destruct (run_ending is_likely_url valid_url fs s);
    cbn [snd settled cleared value posted];
    try (now left); right; split; try reflexivity; tauto.
Qed.

(** X17. A command line means the same in any letter case: when neither the
    text nor its lowercased form is taken for a URL or names an existing
    path, and the lowercased leading token is a command word, submitting the
    text and submitting its lowercased form end alike. *)
Theorem X17_command_line_any_case (is_likely_url valid_url : string -> bool)
    (fs : Filesystem) (s : State) (v tok args : string) :
  is_likely_url (Str.strip v) = false ->
  is_likely_url (Str.strip (Str.lower v)) = false ->
  exists_ fs (Path (Str.strip v)) = Some false ->
  exists_ fs (Path (Str.strip (Str.lower v))) = Some false ->
  _split_command (Str.lower (Str.strip v)) = [tok; args] ->
  tok ∈ command_words ->
  on_input_submitted is_likely_url valid_url fs (with_value s v)
  = on_input_submitted is_likely_url valid_url fs (with_value s (Str.lower v)).
Proof.
  intros Hu Hu' He He' Hs Hin.
  pose proof (handler_lookup_words tok) as Hw.
  rewrite (bool_decide_eq_true_2 _ Hin) in Hw.
  destruct (getattr_command (resolve tok)) as [h|] eqn:Hh; [| discriminate].
  rewrite (run_command is_likely_url valid_url fs (with_value s v)
             tok args h Hu He Hs Hh).
  symmetry.
  apply (run_command is_likely_url valid_url fs (with_value s (Str.lower v))
           tok args h Hu' He'); [| exact Hh].
  cbn [with_value value]. now rewrite strip_lower, lower_idem.
Qed.

Lemma X17_command_line_any_case_witness :
  on_input_submitted never_url numeric_port_url empty_fs
    (with_value (typed "") "ToC  Now")
  = on_input_submitted never_url numeric_port_url empty_fs
      (with_value (typed "") (Str.lower "ToC  Now")).
Proof.
  refine (X17_command_line_any_case never_url numeric_port_url empty_fs
            (typed "") "ToC  Now" "toc" "now"
            eq_refl eq_refl eq_refl eq_refl eq_refl _).
  apply (bool_decide_unpack _). reflexivity.
Defined.

(** ** Properties of [watch_visiting] *)

(** X18. After [watch_visiting] the placeholder is never empty: it is the
    visited location, or the prompt when there is none; with a location the
    input shows it too, without one the input is left alone.  Nothing is
    posted and the event is not touched. *)
Theorem X18_watch_visiting_placeholder (s : State) :
  exists v p : string,
    watch_visiting s
    = (Returned tt, mkState v (visiting s) p (posted s) (stopped s))
    /\ p <> ""
    /\ (visiting s <> "" -> v = visiting s /\ p = visiting s)
    /\ (visiting s = "" -> v = value s /\ p = "Enter a location or command").
Proof.
  unfold watch_visiting, bind, get_visiting, set_placeholder, set_value, ret,
    truthy.
  cbn [value visiting placeholder posted stopped].
  destruct (visiting s) as [|c r] eqn:E; cbn [String.eqb negb].
  - do 2 eexists. split; [reflexivity |].
    split; [discriminate |]. split; [congruence | tauto].
  - do 2 eexists. split; [reflexivity |].
    split; [discriminate |]. split; [tauto | discriminate].
Qed.

Lemma X18_watch_visiting_placeholder_witness :
  watch_visiting (mkState "old" "notes/a.md" "" [QuitCommand] true)
  = (Returned tt,
     mkState "notes/a.md" "notes/a.md" "notes/a.md" [QuitCommand] true).
Proof.
  destruct (X18_watch_visiting_placeholder
              (mkState "old" "notes/a.md" "" [QuitCommand] true))
    as (v & p & Hrun & _ & Hsome & _).
  destruct (Hsome ltac:(discriminate)) as [Hv Hp].
  rewrite Hrun, Hv, Hp. reflexivity.
Defined.

(** X19. [watch_visiting] is idempotent: running it twice leaves the widget
    as running it once. *)
Theorem X19_watch_visiting_idempotent (s : State) :
  (watch_visiting >> watch_visiting) s = watch_visiting s.
Proof.
  unfold watch_visiting, bind, get_visiting, set_placeholder, set_value, ret,
    truthy.
  cbn [value visiting placeholder posted stopped].
  destruct (visiting s) as [|c r] eqn:E; cbn [String.eqb negb];
    cbn [value visiting placeholder posted stopped]; rewrite ?E;
    reflexivity.
Qed.
